(** * HelixFlow core: storage / relationship abstraction

    A shallow embedding of [helixflow-core/src/task.rs] and of the parts of
    [backends/helixflow-surreal/src/lib.rs] that implement the [Store] and
    [Relate] contracts.

    Rust panics ([todo!()], [unwrap] on [Err]) are made explicit with the
    [outcome] type: a Rust call either returns a value ([Ret]) or panics
    ([Panic]).  [HelixFlowResult T] is the Rust [Result<T, HelixFlowError>]. *)

From Stdlib Require Import String ZArith Bool List.
Import ListNotations.
Open Scope string_scope.
Open Scope Z_scope.

(** ** Panicking computations *)

Inductive outcome (A : Type) : Type :=
| Ret (a : A)
| Panic (msg : string).
Arguments Ret {A} a.
Arguments Panic {A} msg.

Definition obind {A B : Type} (m : outcome A) (f : A -> outcome B) : outcome B :=
  match m with
  | Ret a => f a
  | Panic s => Panic s
  end.

Notation "x <- m ;; k" := (obind m (fun x => k))
  (at level 61, m at next level, right associativity).

Definition omap {A B : Type} (f : A -> B) (m : outcome A) : outcome B :=
  match m with
  | Ret a => Ret (f a)
  | Panic s => Panic s
  end.

(** The call returns (does not panic). *)
Definition returns {A : Type} (m : outcome A) : bool :=
  match m with Ret _ => true | Panic _ => false end.

(** [todo!()] *)
Definition todo {A : Type} : outcome A := Panic "not yet implemented".

(** ** Rust [Result] and [ControlFlow] *)

Inductive result (T E : Type) : Type :=
| Ok (t : T)
| Err (e : E).
Arguments Ok {T E} t.
Arguments Err {T E} e.

Definition is_ok {T E : Type} (r : result T E) : bool :=
  match r with Ok _ => true | Err _ => false end.

Definition map_err {T E F : Type} (f : E -> F) (r : result T E) : result T F :=
  match r with Ok t => Ok t | Err e => Err (f e) end.

Inductive ControlFlow (B C : Type) : Type :=
| Continue (c : C)
| Break (b : B).
Arguments Continue {B C} c.
Arguments Break {B C} b.

(** ** Entities *)

(** A [Uuid] is its 128-bit value. *)
Definition Uuid := Z.

(** [std::borrow::Cow<'static, str>]: equality compares the string contents. *)
Inductive Cow : Type :=
| Borrowed (s : string)
| Owned (s : string).

Definition cow_str (c : Cow) : string :=
  match c with Borrowed s | Owned s => s end.

Definition cow_eqb (a b : Cow) : bool := String.eqb (cow_str a) (cow_str b).

Definition option_eqb {A : Type} (eqb : A -> A -> bool) (a b : option A) : bool :=
  match a, b with
  | None, None => true
  | Some x, Some y => eqb x y
  | _, _ => false
  end.

Record Task : Type := mkTask {
  task_name : Cow;
  task_id : Uuid;
  task_description : option Cow
}.

(** [#[derive(PartialEq)]] on [Task] *)
Definition task_eqb (a b : Task) : bool :=
  cow_eqb (task_name a) (task_name b)
  && Z.eqb (task_id a) (task_id b)
  && option_eqb cow_eqb (task_description a) (task_description b).

(** [Task::new]; [Uuid::now_v7()] is the caller-supplied [fresh] id. *)
Definition Task_new (name : Cow) (description : option Cow) (fresh : Uuid) : Task :=
  {| task_name := name; task_id := fresh; task_description := description |}.

Record TaskList : Type := mkTaskList {
  tasklist_name : Cow;
  tasklist_id : Uuid
}.

(** [#[derive(PartialEq)]] on [TaskList] *)
Definition tasklist_eqb (a b : TaskList) : bool :=
  cow_eqb (tasklist_name a) (tasklist_name b)
  && Z.eqb (tasklist_id a) (tasklist_id b).

(** [Box<dyn HelixFlowItem>]: the two implementors of [HelixFlowItem]. *)
Inductive Item : Type :=
| ItemTask (t : Task)
| ItemTaskList (l : TaskList).

(** ** Errors *)

(** [anyhow::Error], kept opaque as its message. *)
Definition AnyhowError := string.

Inductive HelixFlowError : Type :=
| BackendError (e : AnyhowError)
| Mismatch (expected : Item) (actual : Item)
| InvalidID (id : string)
| NotFound (itemtype : string) (id : Uuid)
| Relationship.

Definition HelixFlowResult (T : Type) := result T HelixFlowError.

Definition is_backend_error (e : HelixFlowError) : bool :=
  match e with BackendError _ => true | _ => false end.

(** The [?] operator on a [HelixFlowResult] inside a function that returns a
    [HelixFlowResult]: the error converts by the identity [From] impl. *)
Definition rtry {T U : Type} (r : HelixFlowResult T)
  (k : T -> outcome (HelixFlowResult U)) : outcome (HelixFlowResult U) :=
  match r with
  | Ok t => k t
  | Err e => Ret (Err e)
  end.

Notation "x <-? r ;; k" := (rtry r (fun x => k))
  (at level 61, r at next level, right associativity).

(** ** The relationship [Contains<LEFT, RIGHT>] *)

Record Contains (LEFT RIGHT : Type) : Type := mkContains {
  left : HelixFlowResult LEFT;
  sortorder : string;
  right : HelixFlowResult RIGHT
}.
Arguments mkContains {LEFT RIGHT} left sortorder right.
Arguments left {LEFT RIGHT} c.
Arguments sortorder {LEFT RIGHT} c.
Arguments right {LEFT RIGHT} c.

Section ContainsTry.
Context {LEFT RIGHT : Type}.

(** [impl Try for Contains]: [branch] *)
Definition branch (self : Contains LEFT RIGHT)
  : ControlFlow (Contains LEFT RIGHT) (Contains LEFT RIGHT) :=
  if is_ok (left self) && is_ok (right self) then Continue self else Break self.

(** [impl Try for Contains]: [from_output] is [todo!()]. *)
Definition from_output (output : Contains LEFT RIGHT) : outcome (Contains LEFT RIGHT) :=
  todo.

(** [impl FromResidual<Contains> for Contains]: [todo!()]. *)
Definition from_residual_contains (residual : Contains LEFT RIGHT)
  : outcome (Contains LEFT RIGHT) :=
  todo.

(** [impl FromResidual<Contains> for HelixFlowResult<()>]: [todo!()]. *)
Definition from_residual_result (residual : Contains LEFT RIGHT)
  : outcome (HelixFlowResult unit) :=
  todo.

(** [c?] inside a function returning [HelixFlowResult<()>], followed by [k]. *)
Definition try_contains (c : Contains LEFT RIGHT)
  (k : Contains LEFT RIGHT -> outcome (HelixFlowResult unit))
  : outcome (HelixFlowResult unit) :=
  match branch c with
  | Continue v => k v
  | Break r => from_residual_result r
  end.

End ContainsTry.

(** [Option::unwrap]/[Result::unwrap]: panics on [Err]. *)
Definition unwrap {T : Type} (r : HelixFlowResult T) : outcome T :=
  match r with
  | Ok t => Ret t
  | Err _ => Panic "called `Result::unwrap()` on an `Err` value"
  end.

(** ** [mod blocking]: the [Store], [CRUD], [Relate], [Link], [Linkable] traits *)

Module Blocking.

(** [trait Store<ITEM>]: a backend is its two methods. *)
Record Store (ITEM : Type) : Type := mkStore {
  store_create : ITEM -> outcome (HelixFlowResult ITEM);
  store_get : Uuid -> outcome (HelixFlowResult ITEM)
}.
Arguments mkStore {ITEM} store_create store_get.
Arguments store_create {ITEM} s item.
Arguments store_get {ITEM} s id.

(** [impl<ITEM: HelixFlowItem + PartialEq + Clone> CRUD for ITEM] *)
Section CRUD.
Context {ITEM : Type}.
(** the derived [PartialEq] of [ITEM] *)
Variable item_eqb : ITEM -> ITEM -> bool.
(** [Box::new] into a [Box<dyn HelixFlowItem>] *)
Variable box : ITEM -> Item.

Definition create (self : ITEM) (backend : Store ITEM) : outcome (HelixFlowResult unit) :=
  r <- store_create backend self ;;
  created_item <-? r ;;
  if item_eqb created_item self then Ret (Ok tt)
  else Ret (Err (Mismatch (box self) (box created_item))).

Definition get (backend : Store ITEM) (id : Uuid) : outcome (HelixFlowResult ITEM) :=
  store_get backend id.

End CRUD.

Definition create_task (self : Task) (backend : Store Task) :=
  create task_eqb ItemTask self backend.
Definition create_tasklist (self : TaskList) (backend : Store TaskList) :=
  create tasklist_eqb ItemTaskList self backend.

(** [trait Relate<Contains<TaskList, Task>>]; an iterator is the finite list
    of what it yields. *)
Record Relate : Type := mkRelate {
  relate_create_linked_item :
    Contains TaskList Task -> outcome (HelixFlowResult (Contains TaskList Task));
  relate_get_linked_items :
    TaskList -> outcome (HelixFlowResult (list (Contains TaskList Task)))
}.

(** [impl Link for Contains<TaskList, Task>] *)
Definition create_linked_item (self : Contains TaskList Task) (backend : Relate)
  : outcome (HelixFlowResult unit) :=
  if is_ok (left self) && is_ok (right self) then
    r <- relate_create_linked_item backend self ;;
    created <-? r ;;
    expected <-? right self ;;
    match right created with
    | Ok task =>
        if task_eqb task expected then Ret (Ok tt)
        else actual <-? right created ;;
             Ret (Err (Mismatch (ItemTask expected) (ItemTask actual)))
    | Err e => Ret (Err e)
    end
  else
    _l <-? left self ;;
    _r <-? right self ;;
    Ret (Ok tt).

(** [impl Linkable<Contains<TaskList, Task>> for TaskList] *)
Definition link (self : TaskList) (task : Task) : Contains TaskList Task :=
  mkContains (Ok self) "a" (Ok task).

Definition get_linked_items (self : TaskList) (backend : Relate)
  : outcome (HelixFlowResult (list (Contains TaskList Task))) :=
  relate_get_linked_items backend self.

(** *** [TestBackend] *)
Module TestBackend.

Definition uuid_task1 : Uuid := 0x0196b4c984477959ae1f72c7c8a3dd36.
Definition uuid_task2 : Uuid := 0x0196ca5fd9347ec8b042ae37b94b8432.
Definition uuid_tasklist1 : Uuid := 0x0196fe237c017d6b9e095968eb370549.

(** [Store<Task>::create]; [fresh] is the id [Uuid::now_v7()] draws. *)
Definition task_create (fresh : Uuid) (task : Task) : outcome (HelixFlowResult Task) :=
  match task_name task with
  | Borrowed s =>
      if String.eqb s "FAIL" then Ret (Err (BackendError "Failed to create task"))
      else if String.eqb s "MISMATCH" then
        Ret (Ok (Task_new (task_name task) (task_description task) fresh))
      else Ret (Ok task)
  | Owned _ => Ret (Ok task)
  end.

Definition task_get (id : Uuid) : outcome (HelixFlowResult Task) :=
  if Z.eqb id uuid_task1 then
    Ret (Ok {| task_name := Borrowed "Task 1"; task_id := id; task_description := None |})
  else if Z.eqb id uuid_task2 then
    Ret (Ok {| task_name := Borrowed "Task 2"; task_id := id; task_description := None |})
  else Ret (Err (NotFound "Task" id)).

Definition store_task (fresh : Uuid) : Store Task :=
  mkStore (task_create fresh) task_get.

Definition tasklist_create (item : TaskList) : outcome (HelixFlowResult TaskList) :=
  todo.

Definition tasklist_get (id : Uuid) : outcome (HelixFlowResult TaskList) :=
  if Z.eqb id uuid_tasklist1 then
    Ret (Ok {| tasklist_name := Borrowed "Test TaskList 1"; tasklist_id := id |})
  else Ret (Err (NotFound "Tasklist" id)).

Definition store_tasklist : Store TaskList := mkStore tasklist_create tasklist_get.

Definition task1 : Task :=
  {| task_name := Borrowed "Task 1"; task_id := uuid_task1; task_description := None |}.
Definition task2 : Task :=
  {| task_name := Borrowed "Task 2"; task_id := uuid_task2; task_description := None |}.

(** [Relate<Contains<TaskList, Task>>] *)
Definition rel_create_linked_item (fresh : Uuid) (lnk : Contains TaskList Task)
  : outcome (HelixFlowResult (Contains TaskList Task)) :=
  tasklist <- unwrap (left lnk) ;;
  if Z.eqb (tasklist_id tasklist) uuid_tasklist1 then
    t <- unwrap (right lnk) ;;
    r <- task_create fresh t ;;
    Ret (Ok (mkContains (Ok tasklist) (sortorder lnk) r))
  else Ret (Err (NotFound "Tasklist" (tasklist_id tasklist))).

Definition rel_get_linked_items (l : TaskList)
  : outcome (HelixFlowResult (list (Contains TaskList Task))) :=
  if Z.eqb (tasklist_id l) uuid_tasklist1 then
    Ret (Ok (map (link l) [task1; task2]))
  else Ret (Err (NotFound "Tasklist" (tasklist_id l))).

Definition relate (fresh : Uuid) : Relate :=
  mkRelate (rel_create_linked_item fresh) rel_get_linked_items.

End TestBackend.

End Blocking.

(** ** [helixflow-surreal]: the SurrealDb backend *)

Module Surreal.

(** [surrealdb::sql::Id]: the variants the backend distinguishes, the others
    ([Array], [Object], [Generate], [Range]) folded into [IdOther]. *)
Inductive Id : Type :=
| IdNumber (n : Z)
| IdString (s : string)
| IdUuid (u : Uuid)
| IdOther (repr : string).

(** [surrealdb::sql::Thing] *)
Record Thing : Type := mkThing { tb : string; id : Id }.

Record SurrealTask : Type := mkSurrealTask {
  st_name : Cow;
  st_id : Thing;
  st_description : option Cow
}.

Record SurrealTaskList : Type := mkSurrealTaskList {
  stl_name : Cow;
  stl_id : Thing
}.

(** [struct Link { in, out }] *)
Record SLink : Type := mkSLink { link_in : Thing; link_out : Thing }.

(** The SurrealDb driver, an external collaborator: each request either
    fails with a driver error (already converted by [anyhow::Error::from]) or
    answers. *)
Record Driver : Type := mkDriver {
  db_create_task : SurrealTask -> result (option SurrealTask) AnyhowError;
  db_select_task : Uuid -> result (option SurrealTask) AnyhowError;
  db_create_tasklist : SurrealTaskList -> result (option SurrealTaskList) AnyhowError;
  db_select_tasklist : Uuid -> result (option SurrealTaskList) AnyhowError;
  db_insert_relation : SLink -> result (list SLink) AnyhowError
}.

Section Backend.
(** [impl Display for Id] (the surrealdb crate) *)
Variable id_to_string : Id -> string.
(** the [with_context] messages, which print the item with [{:#?}] *)
Variable task_context : Task -> AnyhowError.
Variable tasklist_context : TaskList -> AnyhowError.

(** [impl TryFrom<SurrealTask> for Task] *)
Definition task_try_from (task : SurrealTask) : HelixFlowResult Task :=
  let idr : HelixFlowResult Uuid :=
    match id (st_id task) with
    | IdUuid u => Ok u
    | other => Err (InvalidID (id_to_string other))
    end in
  match idr with
  | Ok i => Ok {| task_name := st_name task; task_id := i;
                  task_description := st_description task |}
  | Err e => Err e
  end.

(** [impl From<&Task> for SurrealTask] *)
Definition surreal_task_from (task : Task) : SurrealTask :=
  {| st_name := task_name task;
     st_id := {| tb := "Tasks"; id := IdUuid (task_id task) |};
     st_description := task_description task |}.

(** [impl TryFrom<SurrealTaskList> for TaskList] *)
Definition tasklist_try_from (tasklist : SurrealTaskList) : HelixFlowResult TaskList :=
  let idr : HelixFlowResult Uuid :=
    match id (stl_id tasklist) with
    | IdUuid u => Ok u
    | other => Err (InvalidID (id_to_string other))
    end in
  match idr with
  | Ok i => Ok {| tasklist_name := stl_name tasklist; tasklist_id := i |}
  | Err e => Err e
  end.

(** [impl From<&TaskList> for SurrealTaskList] *)
Definition surreal_tasklist_from (tasklist : TaskList) : SurrealTaskList :=
  {| stl_name := tasklist_name tasklist;
     stl_id := {| tb := "Tasklists"; id := IdUuid (tasklist_id tasklist) |} |}.

Variable db : Driver.

(** [Store<Task> for SurrealDb::create] *)
Definition task_create (task : Task) : outcome (HelixFlowResult Task) :=
  match db_create_task db (surreal_task_from task) with
  | Err e => Ret (Err (BackendError e))
  | Ok None => Ret (Err (BackendError (task_context task)))
  | Ok (Some dbtask) =>
      checktask <-? task_try_from dbtask ;;
      Ret (Ok checktask)
  end.

(** [Store<Task> for SurrealDb::get] *)
Definition task_get (i : Uuid) : outcome (HelixFlowResult Task) :=
  match db_select_task db i with
  | Err e => Ret (Err (BackendError e))
  | Ok (Some task) => t <-? task_try_from task ;; Ret (Ok t)
  | Ok None => Ret (Err (NotFound "Task" i))
  end.

(** [Store<TaskList> for SurrealDb::create] *)
Definition tasklist_create (tasklist : TaskList) : outcome (HelixFlowResult TaskList) :=
  match db_create_tasklist db (surreal_tasklist_from tasklist) with
  | Err e => Ret (Err (BackendError e))
  | Ok None => Ret (Err (BackendError (tasklist_context tasklist)))
  | Ok (Some dbtasklist) =>
      check_tasklist <-? tasklist_try_from dbtasklist ;;
      Ret (Ok check_tasklist)
  end.

(** [Store<TaskList> for SurrealDb::get] *)
Definition tasklist_get (i : Uuid) : outcome (HelixFlowResult TaskList) :=
  match db_select_tasklist db i with
  | Err e => Ret (Err (BackendError e))
  | Ok (Some tasklist) => t <-? tasklist_try_from tasklist ;; Ret (Ok t)
  | Ok None => Ret (Err (NotFound "TaskList" i))
  end.

Definition store_task : Blocking.Store Task := Blocking.mkStore task_create task_get.
Definition store_tasklist : Blocking.Store TaskList :=
  Blocking.mkStore tasklist_create tasklist_get.

(** [Relate<Contains<TaskList, Task>> for SurrealDb::create_linked_item] *)
Definition rel_create_linked_item (lnk : Contains TaskList Task)
  : outcome (HelixFlowResult (Contains TaskList Task)) :=
  tasklist <- unwrap (left lnk) ;;
  task <- unwrap (right lnk) ;;
  r1 <- tasklist_get (tasklist_id tasklist) ;;
  db_tasklist <-? r1 ;;
  r2 <- task_create task ;;
  db_task <-? r2 ;;
  match db_insert_relation db
          {| link_in := stl_id (surreal_tasklist_from db_tasklist);
             link_out := st_id (surreal_task_from db_task) |} with
  | Err e => Ret (Err (BackendError e))
  | Ok _confirmed_link => Ret (Ok (mkContains (Ok db_tasklist) "a" (Ok db_task)))
  end.

(** [Relate<Contains<TaskList, Task>> for SurrealDb::get_linked_items]: [todo!()] *)
Definition rel_get_linked_items (l : TaskList)
  : outcome (HelixFlowResult (list (Contains TaskList Task))) :=
  todo.

Definition relate : Blocking.Relate :=
  Blocking.mkRelate rel_create_linked_item rel_get_linked_items.

End Backend.

(** An in-memory database holding no records: creates store and return the
    content they were given, selects find nothing, relations are inserted. *)
Definition empty_mem_driver : Driver :=
  {| db_create_task := fun st => Ok (Some st);
     db_select_task := fun _ => Ok None;
     db_create_tasklist := fun stl => Ok (Some stl);
     db_select_tasklist := fun _ => Ok None;
     db_insert_relation := fun l => Ok [l] |}.

(** A database whose records carry the non-UUID record id [Tasks:bad] /
    [Tasklists:bad]: every create and select answers with such a record. *)
Definition string_id_task (st : SurrealTask) : SurrealTask :=
  {| st_name := st_name st; st_id := {| tb := "Tasks"; id := IdString "bad" |};
     st_description := st_description st |}.
Definition string_id_tasklist (stl : SurrealTaskList) : SurrealTaskList :=
  {| stl_name := stl_name stl; stl_id := {| tb := "Tasklists"; id := IdString "bad" |} |}.

Definition string_id_driver : Driver :=
  {| db_create_task := fun st => Ok (Some (string_id_task st));
     db_select_task := fun _ =>
       Ok (Some {| st_name := Owned "stored"; st_id := {| tb := "Tasks"; id := IdString "bad" |};
                   st_description := None |});
     db_create_tasklist := fun stl => Ok (Some (string_id_tasklist stl));
     db_select_tasklist := fun _ =>
       Ok (Some {| stl_name := Owned "stored"; stl_id := {| tb := "Tasklists"; id := IdString "bad" |} |});
     db_insert_relation := fun l => Ok [l] |}.

(** A model of SurrealDb's in-memory engine ([Mem], an external
    collaborator): each table holds records keyed by the [Id] of their
    record id; [create] refuses a key that is taken, [select] looks the key
    up, relations are always accepted. *)
Record MemDb : Type := mkMemDb {
  mem_tasks : list SurrealTask;
  mem_tasklists : list SurrealTaskList
}.

Definition id_eqb (a b : Id) : bool :=
  match a, b with
  | IdNumber x, IdNumber y => Z.eqb x y
  | IdString x, IdString y => String.eqb x y
  | IdUuid x, IdUuid y => Z.eqb x y
  | IdOther x, IdOther y => String.eqb x y
  | _, _ => false
  end.

Definition mem_has_task (s : MemDb) (i : Id) : bool :=
  existsb (fun x => id_eqb (id (st_id x)) i) (mem_tasks s).
Definition mem_has_tasklist (s : MemDb) (i : Id) : bool :=
  existsb (fun x => id_eqb (id (stl_id x)) i) (mem_tasklists s).

Definition mem_driver (s : MemDb) : Driver :=
  {| db_create_task := fun st =>
       if mem_has_task s (id (st_id st)) then Err "Database record already exists"
       else Ok (Some st);
     db_select_task := fun u =>
       Ok (find (fun x => id_eqb (id (st_id x)) (IdUuid u)) (mem_tasks s));
     db_create_tasklist := fun stl =>
       if mem_has_tasklist s (id (stl_id stl)) then Err "Database record already exists"
       else Ok (Some stl);
     db_select_tasklist := fun u =>
       Ok (find (fun x => id_eqb (id (stl_id x)) (IdUuid u)) (mem_tasklists s));
     db_insert_relation := fun l => Ok [l] |}.


Definition mem_after_create_tasklist (s : MemDb) (stl : SurrealTaskList) : MemDb :=
  if mem_has_tasklist s (id (stl_id stl)) then s
  else {| mem_tasks := mem_tasks s; mem_tasklists := stl :: mem_tasklists s |}.

Definition mem_empty : MemDb := {| mem_tasks := []; mem_tasklists := [] |}.

(** The id is an [Id::Uuid], the only form the conversions accept. *)
Definition is_uuid (i : Id) : bool :=
  match i with IdUuid _ => true | _ => false end.

(** The [Display] of [Id] used in the examples: the string id itself. *)
Definition show_id (i : Id) : string :=
  match i with
  | IdString s => s
  | IdOther r => r
  | _ => "<id>"
  end.

End Surreal.

(** ** [mod non_blocking] *)

Module NonBlocking.

(** [non_blocking::StorageBackend]: [create] is awaited; its future resolves
    to an [anyhow::Result<Task>] (or panics). *)
Record StorageBackend : Type := mkStorageBackend {
  sb_create : Task -> outcome (result Task AnyhowError)
}.

(** [impl CRUD for Task]: [backend.create(self).await?] converts the
    [anyhow::Error] into [HelixFlowError::BackendError] by [From]. *)
Definition create (self : Task) (backend : StorageBackend) : outcome (HelixFlowResult unit) :=
  r <- sb_create backend self ;;
  created_task <-? map_err BackendError r ;;
  if task_eqb created_task self then Ret (Ok tt)
  else Ret (Err (Mismatch (ItemTask self) (ItemTask created_task))).

(** [non_blocking::TestBackend]; [fresh] is the id [Uuid::now_v7()] draws. *)
Definition test_create (fresh : Uuid) (task : Task) : outcome (result Task AnyhowError) :=
  match task_name task with
  | Borrowed s =>
      if String.eqb s "FAIL" then Ret (Err "Taskname: FAIL")
      else if String.eqb s "MISMATCH" then
        Ret (Ok (Task_new (task_name task) (task_description task) fresh))
      else Ret (Ok task)
  | Owned _ => Ret (Ok task)
  end.

Definition TestBackend (fresh : Uuid) : StorageBackend :=
  mkStorageBackend (test_create fresh).

End NonBlocking.

(** ** [helixflow-surreal::non_blocking]: [StorageBackend for SurrealDb] *)

Module SurrealNonBlocking.
Import Surreal.

Section Backend.
Variable id_to_string : Id -> string.
Variable task_context : Task -> AnyhowError.
(** [?] on a [HelixFlowResult] in a function returning [anyhow::Result]:
    the [HelixFlowError] is converted into an [anyhow::Error]. *)
Variable error_to_anyhow : HelixFlowError -> AnyhowError.
Variable db : Driver.

Definition create (task : Task) : outcome (result Task AnyhowError) :=
  match db_create_task db (surreal_task_from task) with
  | Err e => Ret (Err e)
  | Ok None => Ret (Err (task_context task))
  | Ok (Some dbtask) =>
      match task_try_from id_to_string dbtask with
      | Ok checktask => Ret (Ok checktask)
      | Err e => Ret (Err (error_to_anyhow e))
      end
  end.

Definition backend : NonBlocking.StorageBackend := NonBlocking.mkStorageBackend create.

End Backend.
End SurrealNonBlocking.

(** ** [blocking::StorageBackend] and [TaskList::all] / [TaskList::tasks] *)

Module TaskQueries.

(** [trait StorageBackend]; an iterator is the list of what it yields. *)
Record StorageBackend : Type := mkStorageBackend {
  get_all_tasks : outcome (result (list (HelixFlowResult Task)) AnyhowError);
  get_tasks_in : Uuid -> outcome (result (list (HelixFlowResult Task)) AnyhowError)
}.

(** [TaskList::all]: [Ok(backend.get_all_tasks()?)] *)
Definition all (backend : StorageBackend)
  : outcome (HelixFlowResult (list (HelixFlowResult Task))) :=
  r <- get_all_tasks backend ;;
  Ret (map_err BackendError r).

(** [TaskList::tasks]: [Ok(backend.get_tasks_in(&self.id)?)] *)
Definition tasks (self : TaskList) (backend : StorageBackend)
  : outcome (HelixFlowResult (list (HelixFlowResult Task))) :=
  r <- get_tasks_in backend (tasklist_id self) ;;
  Ret (map_err BackendError r).

(** [impl StorageBackend for TestBackend] *)
Definition test_get_all_tasks : outcome (result (list (HelixFlowResult Task)) AnyhowError) :=
  Ret (Ok [Ok Blocking.TestBackend.task1; Ok Blocking.TestBackend.task2]).

Definition test_get_tasks_in (id : Uuid)
  : outcome (result (list (HelixFlowResult Task)) AnyhowError) :=
  test_get_all_tasks.

Definition TestBackend : StorageBackend :=
  mkStorageBackend test_get_all_tasks test_get_tasks_in.

End TaskQueries.

(** * Properties *)

(** ** Unit tests of [task.rs], replayed on the model *)

Module Tests.
Import Blocking.

Example test_create_task :
  create_task (Task_new (Borrowed "Test Task 1") None 5) (TestBackend.store_task 7)
  = Ret (Ok tt).
Proof. reflexivity. Qed.

Example test_failed_to_create_task :
  create_task (Task_new (Borrowed "FAIL") None 5) (TestBackend.store_task 7)
  = Ret (Err (BackendError "Failed to create task")).
Proof. reflexivity. Qed.

Example test_mismatched_task_created :
  create_task (Task_new (Borrowed "MISMATCH") None 5) (TestBackend.store_task 7)
  = Ret (Err (Mismatch (ItemTask (Task_new (Borrowed "MISMATCH") None 5))
                       (ItemTask (Task_new (Borrowed "MISMATCH") None 7)))).
Proof. reflexivity. Qed.

Example test_get_invalid_task :
  get (TestBackend.store_task 7) 0x0196b4c9844778dbae8abe68a8095aa2
  = Ret (Err (NotFound "Task" 0x0196b4c9844778dbae8abe68a8095aa2)).
Proof. reflexivity. Qed.

Example create_task_in_tasklist :
  create_linked_item
    (link {| tasklist_name := Borrowed "Backlog";
             tasklist_id := TestBackend.uuid_tasklist1 |}
          (Task_new (Borrowed "Test task 3") None 5))
    (TestBackend.relate 7)
  = Ret (Ok tt).
Proof. reflexivity. Qed.

Example create_task_in_tasklist_mismatch :
  create_linked_item
    (link {| tasklist_name := Borrowed "Backlog";
             tasklist_id := TestBackend.uuid_tasklist1 |}
          (Task_new (Borrowed "MISMATCH") None 5))
    (TestBackend.relate 7)
  = Ret (Err (Mismatch (ItemTask (Task_new (Borrowed "MISMATCH") None 5))
                       (ItemTask (Task_new (Borrowed "MISMATCH") None 7)))).
Proof. reflexivity. Qed.

Example nb_test_failed_to_create_task :
  NonBlocking.create (Task_new (Borrowed "FAIL") None 5) (NonBlocking.TestBackend 7)
  = Ret (Err (BackendError "Taskname: FAIL")).
Proof. reflexivity. Qed.

End Tests.

(** ** C1: the create-then-verify protocol of [CRUD::create] *)

(** A successful [CRUD::create] had the backend confirm an equal record. *)
Lemma create_ok_inv {ITEM : Type} (item_eqb : ITEM -> ITEM -> bool)
  (box : ITEM -> Item) (e : ITEM) (backend : Blocking.Store ITEM) :
  Blocking.create item_eqb box e backend = Ret (Ok tt) ->
  exists created, Blocking.store_create backend e = Ret (Ok created)
                  /\ item_eqb created e = true.
Proof.
  unfold Blocking.create.
  destruct (Blocking.store_create backend e) as [[created|err]|msg]; simpl;
    try discriminate.
  case_eq (item_eqb created e); intros Heq H; [|discriminate H].
  exists created. auto.
Qed.

(** C1 (amended): [CRUD::create(e, backend)] returns [Ok(())] exactly when
    [backend.create(e)] returns [Ok(created)] with [created == e]; it returns
    [Mismatch{expected: e, actual: created}] when [created != e]; and when
    [backend.create(e)] fails with an error it returns that same error,
    unchanged and without comparing. *)
Theorem crud_create_verifies {ITEM : Type} (item_eqb : ITEM -> ITEM -> bool)
  (box : ITEM -> Item) (e : ITEM) (backend : Blocking.Store ITEM) :
  (Blocking.create item_eqb box e backend = Ret (Ok tt) <->
     exists created, Blocking.store_create backend e = Ret (Ok created)
                     /\ item_eqb created e = true)
  /\ (forall created, Blocking.store_create backend e = Ret (Ok created) ->
        item_eqb created e = false ->
        Blocking.create item_eqb box e backend = Ret (Err (Mismatch (box e) (box created))))
  /\ (forall err, Blocking.store_create backend e = Ret (Err err) ->
        Blocking.create item_eqb box e backend = Ret (Err err)).
Proof.
  unfold Blocking.create.
  split; [|split].
  - split; [apply create_ok_inv|].
    intros [created [Hc Heq]]. rewrite Hc. simpl. rewrite Heq. reflexivity.
  - intros created Hc Hneq. rewrite Hc. simpl. rewrite Hneq. reflexivity.
  - intros err Herr. rewrite Herr. reflexivity.
Qed.

(** C1 (counterexample): a failing [backend.create(e)] is not always surfaced
    as a [BackendError]: the SurrealDb backend fails with [InvalidID] when the
    stored record has a non-UUID id, and [CRUD::create] returns that
    [InvalidID] as it is. *)
Lemma crud_create_error_not_backend_error :
  let e := Task_new (Borrowed "Test Task 1") None 5 in
  let backend := Surreal.store_task Surreal.show_id (fun _ => "ctx")
                   Surreal.string_id_driver in
  Blocking.store_create backend e = Ret (Err (InvalidID "bad"))
  /\ Blocking.create_task e backend = Ret (Err (InvalidID "bad"))
  /\ is_backend_error (InvalidID "bad") = false.
Proof. vm_compute. repeat split. Qed.

(** ** C2: [branch] and the short circuit of [Link::create_linked_item] *)

(** C2: [branch] yields [Continue] exactly when both slots are [Ok] and
    [Break] otherwise; a [Contains<TaskList, Task>] with an [Err] slot makes
    [Link::create_linked_item] return an error that is the same for every
    backend, so the backend's [create_linked_item] is never used. *)
Theorem contains_branch_short_circuits {LEFT RIGHT : Type} (c : Contains LEFT RIGHT) :
  ((exists v, branch c = Continue v) <-> is_ok (left c) = true /\ is_ok (right c) = true)
  /\ ((exists v, branch c = Break v) <-> is_ok (left c) = false \/ is_ok (right c) = false)
  /\ (forall lnk : Contains TaskList Task,
        is_ok (left lnk) && is_ok (right lnk) = false ->
        exists err, forall backend : Blocking.Relate,
          Blocking.create_linked_item lnk backend = Ret (Err err)).
Proof.
  unfold branch.
  split; [|split].
  - destruct (is_ok (left c)), (is_ok (right c)); simpl; split;
      try (intros [v Hv]; discriminate Hv); try (intros [Ha Hb]; discriminate);
      eauto.
  - destruct (is_ok (left c)), (is_ok (right c)); simpl; split;
      try (intros [v Hv]; discriminate Hv); eauto;
      intros [Ha|Ha]; discriminate Ha.
  - intros [l s r] Hnot. unfold Blocking.create_linked_item. simpl in *.
    rewrite Hnot.
    destruct l as [l|el]; [destruct r as [r|er]|].
    + discriminate Hnot.
    + exists er. intros backend. reflexivity.
    + exists el. intros backend. reflexivity.
Qed.

(** ** C3: the residual conversion of a broken relationship *)

(** C3 (counterexample): with [Left = Err(x)] and [Right = Ok(y)], the
    conversion to a [HelixFlowResult<()>] panics and returns no error value. *)
Lemma residual_conversion_returns_no_error :
  from_residual_result
    (mkContains (LEFT := TaskList) (Err (NotFound "Tasklist" 1)) "a"
                (Ok (Task_new (Borrowed "y") None 2)))
  = Panic "not yet implemented".
Proof. reflexivity. Qed.

(** C3 (amended): converting a relationship to a plain result is
    [todo!()]: [FromResidual<Contains> for HelixFlowResult<()>] (and for
    [Contains]) panics on every relationship, so [c?] on a broken [c] panics
    instead of returning an error. *)
Theorem residual_conversion_panics {LEFT RIGHT : Type} (c : Contains LEFT RIGHT) :
  from_residual_result c = Panic "not yet implemented"
  /\ from_residual_contains c = Panic "not yet implemented"
  /\ (is_ok (left c) && is_ok (right c) = false ->
      forall k, try_contains c k = Panic "not yet implemented").
Proof.
  split; [reflexivity|split; [reflexivity|]].
  intros Hbrk k. unfold try_contains, branch. rewrite Hbrk. reflexivity.
Qed.

(** ** C4: linked creation verifies the Right side only *)

(** C4: for a continuable relationship [Contains{Ok(l), s, Ok(t)}],
    [Link::create_linked_item] calls the backend and propagates its panic or
    error; on [Ok(created)] it returns [Ok(())] when [created.right] is
    [Ok(t')] with [t' == t], [Mismatch{expected: t, actual: t'}] when
    [t' != t], and the error of an [Err] [created.right]; the outcome depends
    on [created.right] only, so [created.left] never causes a [Mismatch]. *)
Theorem link_create_verifies_right (l : TaskList) (s : string) (t : Task)
  (backend : Blocking.Relate) :
  let c := mkContains (Ok l) s (Ok t) in
  (forall msg, Blocking.relate_create_linked_item backend c = Panic msg ->
     Blocking.create_linked_item c backend = Panic msg)
  /\ (forall err, Blocking.relate_create_linked_item backend c = Ret (Err err) ->
        Blocking.create_linked_item c backend = Ret (Err err))
  /\ (forall created t', Blocking.relate_create_linked_item backend c = Ret (Ok created) ->
        right created = Ok t' -> task_eqb t' t = true ->
        Blocking.create_linked_item c backend = Ret (Ok tt))
  /\ (forall created t', Blocking.relate_create_linked_item backend c = Ret (Ok created) ->
        right created = Ok t' -> task_eqb t' t = false ->
        Blocking.create_linked_item c backend
        = Ret (Err (Mismatch (ItemTask t) (ItemTask t'))))
  /\ (forall created err, Blocking.relate_create_linked_item backend c = Ret (Ok created) ->
        right created = Err err ->
        Blocking.create_linked_item c backend = Ret (Err err))
  /\ (forall backend' created created',
        Blocking.relate_create_linked_item backend c = Ret (Ok created) ->
        Blocking.relate_create_linked_item backend' c = Ret (Ok created') ->
        right created = right created' ->
        Blocking.create_linked_item c backend = Blocking.create_linked_item c backend').
Proof.
  intros c. unfold Blocking.create_linked_item. subst c. simpl.
  repeat split.
  - intros msg H. rewrite H. reflexivity.
  - intros err H. rewrite H. reflexivity.
  - intros created t' H Hr Heq. rewrite H. simpl. rewrite Hr, Heq. reflexivity.
  - intros created t' H Hr Heq. rewrite H. simpl. rewrite Hr, Heq. reflexivity.
  - intros created err H Hr. rewrite H. simpl. rewrite Hr. reflexivity.
  - intros backend' created created' H H' Hr. rewrite H, H'. simpl. rewrite Hr.
    reflexivity.
Qed.

(** ** C5: a missing record is [NotFound] *)

(** C5: when no record exists for [id], [Store::get(id)] (and so
    [CRUD::get]) returns exactly [NotFound{itemtype, id}]: on SurrealDb with
    itemtype ["Task"] for tasks and ["TaskList"] for task lists, and on the
    [TestBackend] with itemtype ["Task"] for every task id other than its two
    stored ones. *)
Theorem get_missing_is_not_found (id_to_string : Surreal.Id -> string)
  (task_context : Task -> AnyhowError) (tasklist_context : TaskList -> AnyhowError)
  (db : Surreal.Driver) (fresh id : Uuid) :
  (Surreal.db_select_task db id = Ok None ->
     Blocking.get (Surreal.store_task id_to_string task_context db) id
     = Ret (Err (NotFound "Task" id)))
  /\ (Surreal.db_select_tasklist db id = Ok None ->
        Blocking.get (Surreal.store_tasklist id_to_string tasklist_context db) id
        = Ret (Err (NotFound "TaskList" id)))
  /\ (id <> Blocking.TestBackend.uuid_task1 -> id <> Blocking.TestBackend.uuid_task2 ->
        Blocking.get (Blocking.TestBackend.store_task fresh) id
        = Ret (Err (NotFound "Task" id))).
Proof.
  unfold Blocking.get; simpl.
  split; [|split].
  - intros H. unfold Surreal.task_get. rewrite H. reflexivity.
  - intros H. unfold Surreal.tasklist_get. rewrite H. reflexivity.
  - intros H1 H2. unfold Blocking.TestBackend.task_get.
    apply Z.eqb_neq in H1, H2. rewrite H1, H2. reflexivity.
Qed.

(** ** C6: which operations can panic *)

(** Case analysis on every [match] in the goal, then evaluation. *)
Ltac destruct_matches :=
  repeat (simpl in *;
          match goal with
          | |- context [match ?x with _ => _ end] => destruct x eqn:?
          end);
  try reflexivity.

(** C6 (counterexample): [Linkable::get_linked_items] on the SurrealDb
    backend, and the residual conversion of a broken relationship, panic. *)
Lemma core_ops_can_panic :
  Blocking.get_linked_items
    {| tasklist_name := Borrowed "Backlog"; tasklist_id := 3 |}
    (Surreal.relate Surreal.show_id (fun _ => "ctx") Surreal.empty_mem_driver)
  = Panic "not yet implemented"
  /\ from_residual_result
       (mkContains (LEFT := TaskList) (Err (BackendError "unreachable")) "a"
                   (Ok (Task_new (Borrowed "y") None 2)))
     = Panic "not yet implemented".
Proof. split; reflexivity. Qed.

(** C6 (amended): given backends whose own calls return, [CRUD::create],
    [CRUD::get] and [Link::create_linked_item] return a result for every
    input ([branch] is a total function); the [TestBackend] and SurrealDb
    [Relate] implementations return on every continuable relationship, so
    [Link::create_linked_item] over them never panics; [Try::from_output],
    both residual conversions and SurrealDb's [get_linked_items] are
    [todo!()] and panic on every input. *)
Theorem core_ops_return {ITEM : Type} (item_eqb : ITEM -> ITEM -> bool)
  (box : ITEM -> Item) (store : Blocking.Store ITEM) (rel : Blocking.Relate)
  (e : ITEM) (id : Uuid) (c : Contains TaskList Task) :
  ((forall x, returns (Blocking.store_create store x) = true) ->
     returns (Blocking.create item_eqb box e store) = true)
  /\ (returns (Blocking.store_get store id) = true ->
        returns (Blocking.get store id) = true)
  /\ ((forall l s t, returns (Blocking.relate_create_linked_item rel
                                (mkContains (Ok l) s (Ok t))) = true) ->
        returns (Blocking.create_linked_item c rel) = true)
  /\ (forall fresh, returns (Blocking.create_linked_item c
                              (Blocking.TestBackend.relate fresh)) = true)
  /\ (forall id_to_string task_context db,
        returns (Blocking.create_linked_item c
                   (Surreal.relate id_to_string task_context db)) = true)
  /\ from_output c = Panic "not yet implemented"
  /\ from_residual_contains c = Panic "not yet implemented"
  /\ from_residual_result c = Panic "not yet implemented"
  /\ (forall id_to_string task_context db l,
        Blocking.get_linked_items l (Surreal.relate id_to_string task_context db)
        = Panic "not yet implemented").
Proof.
  split; [|split; [|split; [|split; [|split]]]].
  - intros H. unfold Blocking.create.
    specialize (H e). destruct (Blocking.store_create store e) as [[x|err]|msg];
      simpl in *; try discriminate; try reflexivity.
    destruct (item_eqb x e); reflexivity.
  - unfold Blocking.get. auto.
  - intros H. destruct c as [[l|el] s [t|et]]; unfold Blocking.create_linked_item;
      simpl; try reflexivity.
    specialize (H l s t).
    destruct (Blocking.relate_create_linked_item rel (mkContains (Ok l) s (Ok t)))
      as [[created|err]|msg]; simpl in *; try discriminate; try reflexivity.
    destruct (right created) as [t'|e']; simpl; [|reflexivity].
    destruct (task_eqb t' t); reflexivity.
  - intros fresh. destruct c as [[l|el] s [t|et]]; unfold Blocking.create_linked_item;
      simpl; try reflexivity.
    unfold Blocking.TestBackend.rel_create_linked_item, Blocking.TestBackend.task_create;
      simpl.
    destruct_matches.
  - intros id_to_string task_context db.
    destruct c as [[l|el] s [t|et]]; unfold Blocking.create_linked_item;
      simpl; try reflexivity.
    unfold Surreal.rel_create_linked_item, Surreal.tasklist_get, Surreal.task_create,
      Surreal.task_try_from, Surreal.tasklist_try_from; simpl.
    destruct_matches.
  - repeat split.
Qed.

(** ** C7: create keeps the client-generated id *)

Lemma task_eqb_id (a b : Task) : task_eqb a b = true -> task_id a = task_id b.
Proof.
  unfold task_eqb. intros H.
  apply andb_prop in H as [H _]. apply andb_prop in H as [_ H].
  apply Z.eqb_eq. exact H.
Qed.

Lemma tasklist_eqb_id (a b : TaskList) : tasklist_eqb a b = true -> tasklist_id a = tasklist_id b.
Proof.
  unfold tasklist_eqb. intros H.
  apply andb_prop in H as [_ H]. apply Z.eqb_eq. exact H.
Qed.

(** C7: [CRUD::create] takes the item by shared reference and returns only
    [()] or an error, so the caller's item is unchanged; a successful create
    means the backend confirmed a record with the item's own id, and the
    SurrealDb backend stores the record under that id: the id is never
    reassigned by create. *)
Theorem create_keeps_client_id (e : Task) (l : TaskList)
  (tasks : Blocking.Store Task) (lists : Blocking.Store TaskList) :
  (Blocking.create_task e tasks = Ret (Ok tt) ->
     exists created, Blocking.store_create tasks e = Ret (Ok created)
                     /\ task_id created = task_id e)
  /\ (Blocking.create_tasklist l lists = Ret (Ok tt) ->
        exists created, Blocking.store_create lists l = Ret (Ok created)
                        /\ tasklist_id created = tasklist_id l)
  /\ Surreal.st_id (Surreal.surreal_task_from e)
     = {| Surreal.tb := "Tasks"; Surreal.id := Surreal.IdUuid (task_id e) |}
  /\ Surreal.stl_id (Surreal.surreal_tasklist_from l)
     = {| Surreal.tb := "Tasklists"; Surreal.id := Surreal.IdUuid (tasklist_id l) |}.
Proof.
  split; [|split; [|split; reflexivity]].
  - intros H.
    destruct (create_ok_inv task_eqb ItemTask e tasks H)
      as [created [Hc Heq]].
    exists created. split; [exact Hc | apply task_eqb_id; exact Heq].
  - intros H.
    destruct (create_ok_inv tasklist_eqb ItemTaskList l lists H)
      as [created [Hc Heq]].
    exists created. split; [exact Hc | apply tasklist_eqb_id; exact Heq].
Qed.

(** ** C8: the async [CRUD::create] *)

(** C8: for a task [e], a blocking backend and an async backend whose
    [create(e)] agree (the blocking error being the async [anyhow::Error]
    wrapped as [BackendError]), the async [CRUD::create] has the same outcome
    as the blocking one. *)
Theorem nonblocking_create_agrees (e : Task) (nb : NonBlocking.StorageBackend)
  (b : Blocking.Store Task)
  (Hsame : Blocking.store_create b e
           = omap (map_err BackendError) (NonBlocking.sb_create nb e)) :
  NonBlocking.create e nb = Blocking.create_task e b.
Proof.
  unfold NonBlocking.create, Blocking.create_task, Blocking.create.
  rewrite Hsame.
  destruct (NonBlocking.sb_create nb e) as [[t|err]|msg]; reflexivity.
Qed.

Lemma nonblocking_create_agrees_witness :
  let e := Task_new (Borrowed "Test Task 1") None 5 in
  Blocking.store_create (Blocking.TestBackend.store_task 7) e
    = omap (map_err BackendError) (NonBlocking.sb_create (NonBlocking.TestBackend 7) e)
  /\ NonBlocking.create e (NonBlocking.TestBackend 7)
     = Blocking.create_task e (Blocking.TestBackend.store_task 7).
Proof.
  split; [reflexivity|].
  apply nonblocking_create_agrees. reflexivity.
Defined.

(** ** C9: a non-UUID record id is [InvalidID] *)

(** C9: a stored record whose id is not an [Id::Uuid] converts to
    [Err(InvalidID{id})] carrying the id's [Display] string, never to an
    entity with a defaulted id; SurrealDb's [Store::get] and [Store::create]
    return that [InvalidID] unchanged, for tasks and for task lists. *)
Theorem invalid_id_surfaced (id_to_string : Surreal.Id -> string)
  (task_context : Task -> AnyhowError) (tasklist_context : TaskList -> AnyhowError)
  (db : Surreal.Driver) (st : Surreal.SurrealTask) (stl : Surreal.SurrealTaskList)
  (Hst : Surreal.is_uuid (Surreal.id (Surreal.st_id st)) = false)
  (Hstl : Surreal.is_uuid (Surreal.id (Surreal.stl_id stl)) = false) :
  Surreal.task_try_from id_to_string st
    = Err (InvalidID (id_to_string (Surreal.id (Surreal.st_id st))))
  /\ Surreal.tasklist_try_from id_to_string stl
     = Err (InvalidID (id_to_string (Surreal.id (Surreal.stl_id stl))))
  /\ (forall i, Surreal.db_select_task db i = Ok (Some st) ->
        Surreal.task_get id_to_string db i
        = Ret (Err (InvalidID (id_to_string (Surreal.id (Surreal.st_id st))))))
  /\ (forall e, Surreal.db_create_task db (Surreal.surreal_task_from e) = Ok (Some st) ->
        Surreal.task_create id_to_string task_context db e
        = Ret (Err (InvalidID (id_to_string (Surreal.id (Surreal.st_id st))))))
  /\ (forall i, Surreal.db_select_tasklist db i = Ok (Some stl) ->
        Surreal.tasklist_get id_to_string db i
        = Ret (Err (InvalidID (id_to_string (Surreal.id (Surreal.stl_id stl))))))
  /\ (forall l, Surreal.db_create_tasklist db (Surreal.surreal_tasklist_from l) = Ok (Some stl) ->
        Surreal.tasklist_create id_to_string tasklist_context db l
        = Ret (Err (InvalidID (id_to_string (Surreal.id (Surreal.stl_id stl)))))).
Proof.
  assert (Ht : Surreal.task_try_from id_to_string st
               = Err (InvalidID (id_to_string (Surreal.id (Surreal.st_id st))))).
  { unfold Surreal.task_try_from.
    destruct (Surreal.id (Surreal.st_id st)); simpl in Hst; congruence. }
  assert (Hl : Surreal.tasklist_try_from id_to_string stl
               = Err (InvalidID (id_to_string (Surreal.id (Surreal.stl_id stl))))).
  { unfold Surreal.tasklist_try_from.
    destruct (Surreal.id (Surreal.stl_id stl)); simpl in Hstl; congruence. }
  split; [exact Ht|split; [exact Hl|split; [|split; [|split]]]].
  - intros i H. unfold Surreal.task_get. rewrite H, Ht. reflexivity.
  - intros e H. unfold Surreal.task_create. rewrite H, Ht. reflexivity.
  - intros i H. unfold Surreal.tasklist_get. rewrite H, Hl. reflexivity.
  - intros l H. unfold Surreal.tasklist_create. rewrite H, Hl. reflexivity.
Qed.

Lemma invalid_id_surfaced_witness :
  let st := {| Surreal.st_name := Owned "stored";
               Surreal.st_id := {| Surreal.tb := "Tasks"; Surreal.id := Surreal.IdString "bad" |};
               Surreal.st_description := None |} in
  let stl := {| Surreal.stl_name := Owned "stored";
                Surreal.stl_id := {| Surreal.tb := "Tasklists";
                                     Surreal.id := Surreal.IdString "bad" |} |} in
  Surreal.is_uuid (Surreal.id (Surreal.st_id st)) = false
  /\ Surreal.is_uuid (Surreal.id (Surreal.stl_id stl)) = false
  /\ Surreal.task_get Surreal.show_id Surreal.string_id_driver 1
     = Ret (Err (InvalidID "bad")).
Proof.
  intros st stl.
  split; [reflexivity|split; [reflexivity|]].
  destruct (invalid_id_surfaced Surreal.show_id (fun _ => "ctx") (fun _ => "ctx")
              Surreal.string_id_driver st stl eq_refl eq_refl)
    as [_ [_ [Hget _]]].
  exact (Hget 1 eq_refl).
Defined.

(** ** C10: [TaskList::link] *)

(** C10: [l.link(t)] is [Contains{left: Ok(l), sortorder: "a", right: Ok(t)}]:
    always continuable, and its sort-order token is always ["a"]. *)
Theorem link_is_continuable (l : TaskList) (t : Task) :
  Blocking.link l t = mkContains (Ok l) "a" (Ok t)
  /\ branch (Blocking.link l t) = Continue (Blocking.link l t)
  /\ sortorder (Blocking.link l t) = "a".
Proof. repeat split. Qed.

(** * Further properties of the code *)

Lemma cow_eqb_refl (c : Cow) : cow_eqb c c = true.
Proof. unfold cow_eqb. apply String.eqb_refl. Qed.

Lemma task_eqb_refl (t : Task) : task_eqb t t = true.
Proof.
  destruct t as [n i [d|]]; unfold task_eqb; simpl;
    rewrite cow_eqb_refl, Z.eqb_refl; simpl; try rewrite cow_eqb_refl; reflexivity.
Qed.


(** ** SurrealDb record conversions *)

(** The SurrealDb record built from a task (list) converts back to exactly
    that task (list); and a record of the [Tasks] table that converts to a
    task is the record built from that task. *)
Theorem surreal_conversion_roundtrip (id_to_string : Surreal.Id -> string)
  (t : Task) (l : TaskList) (st : Surreal.SurrealTask) (stl : Surreal.SurrealTaskList) :
  Surreal.task_try_from id_to_string (Surreal.surreal_task_from t) = Ok t
  /\ Surreal.tasklist_try_from id_to_string (Surreal.surreal_tasklist_from l) = Ok l
  /\ (Surreal.tb (Surreal.st_id st) = "Tasks" -> forall t',
        Surreal.task_try_from id_to_string st = Ok t' -> Surreal.surreal_task_from t' = st)
  /\ (Surreal.tb (Surreal.stl_id stl) = "Tasklists" -> forall l',
        Surreal.tasklist_try_from id_to_string stl = Ok l' ->
        Surreal.surreal_tasklist_from l' = stl).
Proof.
  split; [destruct t; reflexivity|split; [destruct l; reflexivity|split]].
  - destruct st as [n [tb0 i] d]; simpl. intros Htb t' H. subst tb0.
    destruct i; simpl in H; try discriminate H. injection H as <-. reflexivity.
  - destruct stl as [n [tb0 i]]; simpl. intros Htb l' H. subst tb0.
    destruct i; simpl in H; try discriminate H. injection H as <-. reflexivity.
Qed.

(** ** Create then get on the in-memory database *)



(** ** Linked creation composed with [CRUD::create] *)

(** When a [Relate] backend creates the Right side of a continuable link
    with a [Store] backend and returns it as the new Right (whatever Left
    and sort order it returns), [Link::create_linked_item] has exactly the
    outcome of [CRUD::create] of the Right item on that store. *)
Theorem link_create_is_crud_on_right (rel : Blocking.Relate) (store : Blocking.Store Task)
  (l : TaskList) (s : string) (t : Task) (l' : HelixFlowResult TaskList) (s' : string)
  (Hdel : Blocking.relate_create_linked_item rel (mkContains (Ok l) s (Ok t))
          = omap (fun r => Ok (mkContains l' s' r)) (Blocking.store_create store t)) :
  Blocking.create_linked_item (mkContains (Ok l) s (Ok t)) rel = Blocking.create_task t store.
Proof.
  unfold Blocking.create_linked_item, Blocking.create_task, Blocking.create. simpl.
  rewrite Hdel.
  destruct (Blocking.store_create store t) as [[t'|e]|msg]; simpl; try reflexivity.
Qed.

Lemma link_create_is_crud_on_right_witness :
  let l := {| tasklist_name := Borrowed "Backlog";
              tasklist_id := Blocking.TestBackend.uuid_tasklist1 |} in
  let t := Task_new (Borrowed "MISMATCH") None 5 in
  Blocking.relate_create_linked_item (Blocking.TestBackend.relate 7) (mkContains (Ok l) "a" (Ok t))
    = omap (fun r => Ok (mkContains (Ok l) "a" r))
           (Blocking.store_create (Blocking.TestBackend.store_task 7) t)
  /\ Blocking.create_linked_item (mkContains (Ok l) "a" (Ok t)) (Blocking.TestBackend.relate 7)
     = Blocking.create_task t (Blocking.TestBackend.store_task 7).
Proof.
  intros l t. split; [reflexivity|].
  apply (link_create_is_crud_on_right _ _ l "a" t (Ok l) "a"). reflexivity.
Defined.

(** On the [TestBackend], linking a task into the known task list has the
    outcome of [CRUD::create] of the task (success, [BackendError] for a
    task named ["FAIL"], [Mismatch] for ["MISMATCH"]); linking into any
    other list fails with [NotFound{"Tasklist", id}]. *)
Theorem test_backend_link_create (fresh : Uuid) (l : TaskList) (t : Task) :
  (tasklist_id l = Blocking.TestBackend.uuid_tasklist1 ->
     Blocking.create_linked_item (Blocking.link l t) (Blocking.TestBackend.relate fresh)
     = Blocking.create_task t (Blocking.TestBackend.store_task fresh))
  /\ (tasklist_id l <> Blocking.TestBackend.uuid_tasklist1 ->
        Blocking.create_linked_item (Blocking.link l t) (Blocking.TestBackend.relate fresh)
        = Ret (Err (NotFound "Tasklist" (tasklist_id l)))).
Proof.
  unfold Blocking.create_linked_item, Blocking.link, Blocking.create_task, Blocking.create.
  simpl. unfold Blocking.TestBackend.rel_create_linked_item. simpl.
  split.
  - intros H. rewrite H, Z.eqb_refl. simpl.
    destruct (Blocking.TestBackend.task_create fresh t) as [[t'|e]|msg]; reflexivity.
  - intros H. apply Z.eqb_neq in H. rewrite H. reflexivity.
Qed.

(** On SurrealDb, when the task list of a link is found, linking a task
    (with a relation insert that succeeds) has the outcome of [CRUD::create]
    of the task on the same database. *)
Theorem surreal_link_create_is_crud (id_to_string : Surreal.Id -> string)
  (task_context : Task -> AnyhowError) (db : Surreal.Driver)
  (l l' : TaskList) (s : string) (t : Task)
  (Hget : Surreal.tasklist_get id_to_string db (tasklist_id l) = Ret (Ok l'))
  (Hins : forall lk, is_ok (Surreal.db_insert_relation db lk) = true) :
  Blocking.create_linked_item (mkContains (Ok l) s (Ok t))
    (Surreal.relate id_to_string task_context db)
  = Blocking.create_task t (Surreal.store_task id_to_string task_context db).
Proof.
  unfold Blocking.create_linked_item, Blocking.create_task, Blocking.create. simpl.
  unfold Surreal.rel_create_linked_item. simpl. rewrite Hget. simpl.
  destruct (Surreal.task_create id_to_string task_context db t) as [[t'|e]|msg];
    simpl; try reflexivity.
  match goal with |- context [Surreal.db_insert_relation db ?lk] =>
    specialize (Hins lk); destruct (Surreal.db_insert_relation db lk) end;
    [reflexivity|discriminate Hins].
Qed.

Lemma surreal_link_create_is_crud_witness :
  let l := {| tasklist_name := Borrowed "Backlog"; tasklist_id := 12 |} in
  let s := Surreal.mem_after_create_tasklist Surreal.mem_empty
             (Surreal.surreal_tasklist_from l) in
  let t := Task_new (Borrowed "Task 3") None 5 in
  Surreal.tasklist_get Surreal.show_id (Surreal.mem_driver s) (tasklist_id l) = Ret (Ok l)
  /\ Blocking.create_linked_item (Blocking.link l t)
       (Surreal.relate Surreal.show_id (fun _ => "ctx") (Surreal.mem_driver s))
     = Blocking.create_task t
         (Surreal.store_task Surreal.show_id (fun _ => "ctx") (Surreal.mem_driver s)).
Proof.
  intros l s t. split; [reflexivity|].
  apply (surreal_link_create_is_crud _ _ _ l l "a" t); [reflexivity|].
  intros lk. reflexivity.
Defined.

(** On SurrealDb, a link whose task-list lookup fails (no such list:
    [NotFound{"TaskList", id}], or a driver or id error) fails with that
    error, whatever the database would answer to the task creation and the
    relation insert: the task is not created. *)
Theorem surreal_link_list_lookup_first (id_to_string : Surreal.Id -> string)
  (task_context : Task -> AnyhowError) (db : Surreal.Driver)
  (l : TaskList) (s : string) (t : Task) (e : HelixFlowError)
  (Hget : Surreal.tasklist_get id_to_string db (tasklist_id l) = Ret (Err e)) :
  (forall db', Surreal.db_select_tasklist db' = Surreal.db_select_tasklist db ->
     Blocking.create_linked_item (mkContains (Ok l) s (Ok t))
       (Surreal.relate id_to_string task_context db') = Ret (Err e))
  /\ (Surreal.db_select_tasklist db (tasklist_id l) = Ok None ->
        e = NotFound "TaskList" (tasklist_id l)).
Proof.
  split.
  - intros db' Hsel.
    assert (Hget' : Surreal.tasklist_get id_to_string db' (tasklist_id l) = Ret (Err e)).
    { unfold Surreal.tasklist_get in *. rewrite Hsel. exact Hget. }
    unfold Blocking.create_linked_item. simpl.
    unfold Surreal.rel_create_linked_item. simpl. rewrite Hget'. reflexivity.
  - intros Hnone. unfold Surreal.tasklist_get in Hget. rewrite Hnone in Hget.
    injection Hget as <-. reflexivity.
Qed.

Lemma surreal_link_list_lookup_first_witness :
  let l := {| tasklist_name := Borrowed "Backlog"; tasklist_id := 12 |} in
  Surreal.tasklist_get Surreal.show_id Surreal.empty_mem_driver (tasklist_id l)
    = Ret (Err (NotFound "TaskList" 12))
  /\ Blocking.create_linked_item (Blocking.link l (Task_new (Borrowed "Task 3") None 5))
       (Surreal.relate Surreal.show_id (fun _ => "ctx") Surreal.empty_mem_driver)
     = Ret (Err (NotFound "TaskList" 12)).
Proof.
  intros l. split; [reflexivity|].
  exact (proj1 (surreal_link_list_lookup_first Surreal.show_id (fun _ => "ctx")
           Surreal.empty_mem_driver l "a" (Task_new (Borrowed "Task 3") None 5)
           (NotFound "TaskList" 12) eq_refl) Surreal.empty_mem_driver eq_refl).
Defined.

(** ** What the [Relate] backends return *)

(** SurrealDb's [create_linked_item] answers a successful link with
    [Contains{Ok(l'), "a", Ok(t')}] where [l'] is the task list read back by
    [get] and [t'] the task returned by [create]: the caller's sort order is
    replaced by ["a"]. The [TestBackend] instead returns the caller's sort
    order. *)
Theorem relate_result_shape (id_to_string : Surreal.Id -> string)
  (task_context : Task -> AnyhowError) (db : Surreal.Driver) (fresh : Uuid)
  (c c' : Contains TaskList Task) :
  (Surreal.rel_create_linked_item id_to_string task_context db c = Ret (Ok c') ->
     exists l t l' t',
       left c = Ok l /\ right c = Ok t
       /\ Surreal.tasklist_get id_to_string db (tasklist_id l) = Ret (Ok l')
       /\ Surreal.task_create id_to_string task_context db t = Ret (Ok t')
       /\ c' = mkContains (Ok l') "a" (Ok t'))
  /\ (Blocking.TestBackend.rel_create_linked_item fresh c = Ret (Ok c') ->
        sortorder c' = sortorder c).
Proof.
  split.
  - unfold Surreal.rel_create_linked_item.
    destruct c as [[l|el] s [t|et]]; simpl; try (intros H; discriminate H).
    destruct (Surreal.tasklist_get id_to_string db (tasklist_id l)) as [[l'|e1]|m1] eqn:Hg;
      simpl; try (intros H; discriminate H).
    destruct (Surreal.task_create id_to_string task_context db t) as [[t'|e2]|m2] eqn:Ht;
      simpl; try (intros H; discriminate H).
    match goal with |- context [Surreal.db_insert_relation db ?lk] =>
      destruct (Surreal.db_insert_relation db lk) end; try (intros H; discriminate H).
    intros H. injection H as <-. exists l, t, l', t'. repeat split; assumption.
  - unfold Blocking.TestBackend.rel_create_linked_item.
    destruct c as [[l|el] s [t|et]]; simpl; try (intros H; discriminate H);
      destruct (Z.eqb (tasklist_id l) Blocking.TestBackend.uuid_tasklist1); simpl;
      try (intros H; discriminate H).
    destruct (Blocking.TestBackend.task_create fresh t) as [r|m]; simpl;
      try (intros H; discriminate H).
    intros H. injection H as <-. reflexivity.
Qed.

(** SurrealDb's [create_linked_item] is not atomic: when the task list is
    found and the task is created but the relation insert fails, the call
    fails with [BackendError] although the task was created. The relation it
    inserts links the stored list's and task's record ids. *)
Theorem surreal_link_insert_failure (id_to_string : Surreal.Id -> string)
  (task_context : Task -> AnyhowError) (db : Surreal.Driver)
  (l l' : TaskList) (s : string) (t t' : Task) (msg : AnyhowError)
  (Hget : Surreal.tasklist_get id_to_string db (tasklist_id l) = Ret (Ok l'))
  (Hcreate : Surreal.task_create id_to_string task_context db t = Ret (Ok t'))
  (Hins : Surreal.db_insert_relation db
            {| Surreal.link_in := {| Surreal.tb := "Tasklists";
                                     Surreal.id := Surreal.IdUuid (tasklist_id l') |};
               Surreal.link_out := {| Surreal.tb := "Tasks";
                                      Surreal.id := Surreal.IdUuid (task_id t') |} |}
          = Err msg) :
  Surreal.rel_create_linked_item id_to_string task_context db (mkContains (Ok l) s (Ok t))
    = Ret (Err (BackendError msg))
  /\ Blocking.create_linked_item (mkContains (Ok l) s (Ok t))
       (Surreal.relate id_to_string task_context db) = Ret (Err (BackendError msg)).
Proof.
  assert (H : Surreal.rel_create_linked_item id_to_string task_context db
                (mkContains (Ok l) s (Ok t)) = Ret (Err (BackendError msg))).
  { unfold Surreal.rel_create_linked_item. simpl. rewrite Hget. simpl.
    rewrite Hcreate. simpl. rewrite Hins. reflexivity. }
  split; [exact H|].
  unfold Blocking.create_linked_item. simpl. rewrite H. reflexivity.
Qed.

Lemma surreal_link_insert_failure_witness :
  let l := {| tasklist_name := Borrowed "Backlog"; tasklist_id := 12 |} in
  let t := Task_new (Borrowed "Task 3") None 5 in
  let s := Surreal.mem_after_create_tasklist Surreal.mem_empty
             (Surreal.surreal_tasklist_from l) in
  let db := {| Surreal.db_create_task := Surreal.db_create_task (Surreal.mem_driver s);
               Surreal.db_select_task := Surreal.db_select_task (Surreal.mem_driver s);
               Surreal.db_create_tasklist := Surreal.db_create_tasklist (Surreal.mem_driver s);
               Surreal.db_select_tasklist := Surreal.db_select_tasklist (Surreal.mem_driver s);
               Surreal.db_insert_relation := fun _ => Err "connection lost" |} in
  Surreal.task_create Surreal.show_id (fun _ => "ctx") db t = Ret (Ok t)
  /\ Blocking.create_linked_item (Blocking.link l t)
       (Surreal.relate Surreal.show_id (fun _ => "ctx") db)
     = Ret (Err (BackendError "connection lost")).
Proof.
  intros l t s db. split; [reflexivity|].
  exact (proj2 (surreal_link_insert_failure Surreal.show_id (fun _ => "ctx") db
                  l l "a" t t "connection lost" eq_refl eq_refl eq_refl)).
Defined.

(** ** The async SurrealDb backend *)

(** The async [CRUD::create] on the async SurrealDb backend has the outcome
    of the blocking [CRUD::create] on the blocking SurrealDb backend, except
    when the database answers with a record whose id is not a UUID: the
    blocking path then fails with [InvalidID], the async path with a
    [BackendError] wrapping that [InvalidID]. *)
Theorem async_surreal_create_vs_blocking (id_to_string : Surreal.Id -> string)
  (task_context : Task -> AnyhowError) (error_to_anyhow : HelixFlowError -> AnyhowError)
  (db : Surreal.Driver) (t : Task) :
  ((forall st, Surreal.db_create_task db (Surreal.surreal_task_from t) = Ok (Some st) ->
      Surreal.is_uuid (Surreal.id (Surreal.st_id st)) = true) ->
     NonBlocking.create t
       (SurrealNonBlocking.backend id_to_string task_context error_to_anyhow db)
     = Blocking.create_task t (Surreal.store_task id_to_string task_context db))
  /\ (forall st, Surreal.db_create_task db (Surreal.surreal_task_from t) = Ok (Some st) ->
        Surreal.is_uuid (Surreal.id (Surreal.st_id st)) = false ->
        NonBlocking.create t
          (SurrealNonBlocking.backend id_to_string task_context error_to_anyhow db)
        = Ret (Err (BackendError
                      (error_to_anyhow (InvalidID (id_to_string (Surreal.id (Surreal.st_id st)))))))
        /\ Blocking.create_task t (Surreal.store_task id_to_string task_context db)
           = Ret (Err (InvalidID (id_to_string (Surreal.id (Surreal.st_id st)))))).
Proof.
  unfold NonBlocking.create, Blocking.create_task, Blocking.create. simpl.
  unfold SurrealNonBlocking.create, Surreal.task_create.
  split.
  - intros Huuid.
    destruct (Surreal.db_create_task db (Surreal.surreal_task_from t)) as [[st|]|e] eqn:Hc;
      simpl; try reflexivity.
    specialize (Huuid st eq_refl).
    unfold Surreal.task_try_from.
    destruct (Surreal.id (Surreal.st_id st)); simpl in Huuid; try discriminate Huuid.
    reflexivity.
  - intros st Hc Hbad. rewrite Hc. unfold Surreal.task_try_from.
    destruct (Surreal.id (Surreal.st_id st)); simpl in Hbad; try discriminate Hbad;
      split; reflexivity.
Qed.

(** ** The [TestBackend] queries *)

(** [TaskList::tasks] on the [TestBackend] ignores the list: every task
    list, also one that [get_linked_items] rejects with [NotFound], gets the
    same two tasks that [TaskList::all] returns. *)
Theorem test_backend_tasks_ignore_list (l : TaskList) :
  TaskQueries.tasks l TaskQueries.TestBackend = TaskQueries.all TaskQueries.TestBackend
  /\ TaskQueries.all TaskQueries.TestBackend
     = Ret (Ok [Ok Blocking.TestBackend.task1; Ok Blocking.TestBackend.task2])
  /\ (tasklist_id l <> Blocking.TestBackend.uuid_tasklist1 ->
        Blocking.get_linked_items l (Blocking.TestBackend.relate 0)
        = Ret (Err (NotFound "Tasklist" (tasklist_id l)))).
Proof.
  split; [reflexivity|split; [reflexivity|]].
  intros H. unfold Blocking.get_linked_items. simpl.
  unfold Blocking.TestBackend.rel_get_linked_items.
  apply Z.eqb_neq in H. rewrite H. reflexivity.
Qed.

(** Every relationship the [TestBackend] lists for a task list is
    continuable, has that list as Left and sort order ["a"], and its Right
    task is what [Store::get] of the task's id returns. *)
Theorem test_backend_linked_items_consistent (fresh : Uuid) (l : TaskList)
  (items : list (Contains TaskList Task))
  (H : Blocking.get_linked_items l (Blocking.TestBackend.relate fresh) = Ret (Ok items)) :
  forall c, In c items ->
    branch c = Continue c /\ left c = Ok l /\ sortorder c = "a"
    /\ exists t, right c = Ok t
                 /\ Blocking.get (Blocking.TestBackend.store_task fresh) (task_id t)
                    = Ret (Ok t).
Proof.
  unfold Blocking.get_linked_items in H. simpl in H.
  unfold Blocking.TestBackend.rel_get_linked_items in H.
  destruct (Z.eqb (tasklist_id l) Blocking.TestBackend.uuid_tasklist1);
    [|discriminate H].
  injection H as <-. simpl.
  intros c [<-|[<-|[]]]; repeat split.
  - exists Blocking.TestBackend.task1. split; reflexivity.
  - exists Blocking.TestBackend.task2. split; reflexivity.
Qed.

Lemma test_backend_linked_items_consistent_witness :
  let l := {| tasklist_name := Borrowed "Backlog";
              tasklist_id := Blocking.TestBackend.uuid_tasklist1 |} in
  Blocking.get_linked_items l (Blocking.TestBackend.relate 0)
    = Ret (Ok (map (Blocking.link l) [Blocking.TestBackend.task1; Blocking.TestBackend.task2]))
  /\ sortorder (Blocking.link l Blocking.TestBackend.task1) = "a".
Proof.
  intros l. split; [reflexivity|].
  exact (proj1 (proj2 (proj2
    (test_backend_linked_items_consistent 0 l _ eq_refl _ (or_introl eq_refl))))).
Defined.

(** The [TestBackend]'s failure and mismatch triggers match on a borrowed
    name only: a task whose name is an owned string is stored as it is, so
    [CRUD::create] succeeds even for the names ["FAIL"] and ["MISMATCH"]. *)
Theorem test_backend_owned_name_stored (fresh : Uuid) (t : Task) (s : string)
  (Hname : task_name t = Owned s) :
  Blocking.TestBackend.task_create fresh t = Ret (Ok t)
  /\ Blocking.create_task t (Blocking.TestBackend.store_task fresh) = Ret (Ok tt).
Proof.
  assert (Hc : Blocking.TestBackend.task_create fresh t = Ret (Ok t)).
  { unfold Blocking.TestBackend.task_create. rewrite Hname. reflexivity. }
  split; [exact Hc|].
  unfold Blocking.create_task, Blocking.create. simpl. rewrite Hc. simpl.
  rewrite task_eqb_refl. reflexivity.
Qed.

Lemma test_backend_owned_name_stored_witness :
  let t := {| task_name := Owned "FAIL"; task_id := 5; task_description := None |} in
  task_name t = Owned "FAIL"
  /\ Blocking.create_task t (Blocking.TestBackend.store_task 7) = Ret (Ok tt)
  /\ Blocking.create_task (Task_new (Borrowed "FAIL") None 5) (Blocking.TestBackend.store_task 7)
     = Ret (Err (BackendError "Failed to create task")).
Proof.
  intros t. split; [reflexivity|split; [|reflexivity]].
  exact (proj2 (test_backend_owned_name_stored 7 t "FAIL" eq_refl)).
Defined.
